(** * PaperFlow native scanner wrappers: TWAIN, SANE and WIA sessions

    A shallow embedding of the Node.js addons under [electron/native]
    ([twainWrapper.cpp], [saneWrapper.cpp], [wiaWrapper.cpp] and their
    headers) and the properties of the scanner-session contract checked
    against them.

    Every addon class keeps two private fields, [isInitialized_] and
    [selectedDeviceId_]; each of its seven instance methods receives the
    JavaScript arguments ([Napi::CallbackInfo]) and either returns a
    JavaScript value or leaves a pending JavaScript exception.  A method is
    therefore a function from the object state and the argument list to the
    new state and a completion. *)

From Stdlib Require Import String List ZArith QArith Bool.
Import ListNotations.
Local Open Scope string_scope.
Local Open Scope list_scope.

(** ** The fragment of N-API the wrappers use *)

Module Napi.

(** JavaScript values as the wrappers build and inspect them.  An object
    is its property list in insertion order; an array is its element
    list; a number is kept exact (every literal of the sources -- 75,
    150, 300, 600, 8.5, 14.0 -- is a dyadic rational). *)
#[local] Unset Elimination Schemes.
Inductive Value : Type :=
| VUndefined
| VNull
| VBoolean (b : bool)
| VNumber (q : Q)
| VString (s : string)
| VArray (elems : list Value)
| VObject (props : list (string * Value)).
#[local] Set Elimination Schemes.

(** [Napi::CallbackInfo]: [info.Length()] is [length info], [info[i]] is
    the [i]-th element. *)
Definition CallbackInfo : Type := list Value.

(** The two exception classes the sources throw. *)
Inductive ErrorClass : Type := Error | TypeError.

(** What JavaScript sees when a method comes back: the returned value, or
    the exception left pending by [ThrowAsJavaScriptException] (the
    [env.Null()] returned after it is discarded by the runtime). *)
Inductive Completion : Type :=
| Return (v : Value)
| Throw (c : ErrorClass) (message : string).

Definition IsString (v : Value) : bool :=
  match v with VString _ => true | _ => false end.

(** [info[i]]; reading past [info.Length()] yields undefined. *)
Definition arg (info : CallbackInfo) (i : nat) : Value := nth i info VUndefined.

(** [v.As<Napi::String>().Utf8Value()], only ever used behind [IsString]. *)
Definition Utf8Value (v : Value) : string :=
  match v with VString s => s | _ => "" end.

(** [Napi::Number::New] on a C++ [int] and on a [double] literal. *)
Definition of_int (z : Z) : Value := VNumber (inject_Z z).
Definition of_double (num : Z) (den : positive) : Value := VNumber (num # den).

(** [Napi::Object::New(env)], [Napi::Array::New(env)] and
    [Napi::Array::New(env, n)]. *)
Definition ObjectNew : Value := VObject [].
Definition ArrayNew (n : nat) : Value := VArray (repeat VUndefined n).

Fixpoint set_prop (key : string) (v : Value) (props : list (string * Value))
  : list (string * Value) :=
  match props with
  | [] => [(key, v)]
  | (k, w) :: rest =>
      if String.eqb k key then (k, v) :: rest
      else (k, w) :: set_prop key v rest
  end.

(** Writing index [i] of an array: in range it replaces the element, past
    the end JavaScript extends the array with holes (read as undefined). *)
Fixpoint set_elem (i : nat) (v : Value) (elems : list Value) : list Value :=
  match i, elems with
  | O, [] => [v]
  | O, _ :: rest => v :: rest
  | S j, [] => VUndefined :: set_elem j v []
  | S j, e :: rest => e :: set_elem j v rest
  end.

(** [obj.Set(key, value)]. *)
Definition ObjectSet (o : Value) (key : string) (v : Value) : Value :=
  match o with
  | VObject props => VObject (set_prop key v props)
  | other => other
  end.

(** [arr.Set((uint32_t)i, value)]. *)
Definition ArraySet (a : Value) (i : nat) (v : Value) : Value :=
  match a with
  | VArray elems => VArray (set_elem i v elems)
  | other => other
  end.

Fixpoint get_prop (key : string) (props : list (string * Value)) : option Value :=
  match props with
  | [] => None
  | (k, w) :: rest => if String.eqb k key then Some w else get_prop key rest
  end.

(** Property read as JavaScript does it: a missing property is undefined. *)
Definition ObjectGet (o : Value) (key : string) : Value :=
  match o with
  | VObject props =>
      match get_prop key props with Some w => w | None => VUndefined end
  | _ => VUndefined
  end.

Definition ObjectHas (o : Value) (key : string) : bool :=
  match o with
  | VObject props =>
      match get_prop key props with Some _ => true | None => false end
  | _ => false
  end.

Definition elements (a : Value) : list Value :=
  match a with VArray elems => elems | _ => [] end.

End Napi.
Import Napi.

(** ** Object state shared by the wrapper classes

    [TwainScanner], [SaneScanner], [WiaScanner] (and the declared
    [ImageCaptureScanner], whose method bodies are not part of the
    sources) all carry exactly these two fields. *)

Record Session : Type := mkSession {
  isInitialized_ : bool;
  selectedDeviceId_ : string
}.

(** The constructors: [isInitialized_(false)], and [selectedDeviceId_]
    default-constructed to the empty string. *)
Definition construct : Session :=
  {| isInitialized_ := false; selectedDeviceId_ := "" |}.

(** [std::string::empty]. *)
Definition empty (s : string) : bool :=
  match s with EmptyString => true | String _ _ => false end.

(** An instance method of an addon class. *)
Definition Method : Type := Session -> CallbackInfo -> Session * Completion.

(** ** TWAIN ([twainWrapper.cpp]) *)

Module TwainWrapper.

Definition Initialize : Method := fun self info =>
  ({| isInitialized_ := true; selectedDeviceId_ := selectedDeviceId_ self |},
   Return (VBoolean true)).

(** The capability object of the development mock device, built by the
    same sequence of [Set] calls as the source. *)
Definition mockCapabilities : Value :=
  let capabilities := ObjectNew in
  let capabilities := ObjectSet capabilities "hasFlatbed" (VBoolean true) in
  let capabilities := ObjectSet capabilities "hasADF" (VBoolean true) in
  let capabilities := ObjectSet capabilities "duplex" (VBoolean true) in
  let resolutions := ArrayNew 4 in
  let resolutions := ArraySet resolutions 0 (of_int 75) in
  let resolutions := ArraySet resolutions 1 (of_int 150) in
  let resolutions := ArraySet resolutions 2 (of_int 300) in
  let resolutions := ArraySet resolutions 3 (of_int 600) in
  let capabilities := ObjectSet capabilities "resolutions" resolutions in
  let colorModes := ArrayNew 3 in
  let colorModes := ArraySet colorModes 0 (VString "color") in
  let colorModes := ArraySet colorModes 1 (VString "grayscale") in
  let colorModes := ArraySet colorModes 2 (VString "blackwhite") in
  let capabilities := ObjectSet capabilities "colorModes" colorModes in
  let paperSizes := ArrayNew 4 in
  let paperSizes := ArraySet paperSizes 0 (VString "letter") in
  let paperSizes := ArraySet paperSizes 1 (VString "legal") in
  let paperSizes := ArraySet paperSizes 2 (VString "a4") in
  let paperSizes := ArraySet paperSizes 3 (VString "a5") in
  let capabilities := ObjectSet capabilities "paperSizes" paperSizes in
  let capabilities := ObjectSet capabilities "maxWidth" (of_double 17 2) in
  let capabilities := ObjectSet capabilities "maxHeight" (of_double 14 1) in
  capabilities.

Definition mockDevice : Value :=
  let mockDevice := ObjectNew in
  let mockDevice := ObjectSet mockDevice "id" (VString "twain-mock-001") in
  let mockDevice := ObjectSet mockDevice "name" (VString "TWAIN Mock Scanner") in
  let mockDevice := ObjectSet mockDevice "manufacturer" (VString "PaperFlow") in
  let mockDevice := ObjectSet mockDevice "model" (VString "Virtual Scanner") in
  let mockDevice := ObjectSet mockDevice "available" (VBoolean true) in
  let mockDevice := ObjectSet mockDevice "platform" (VString "twain") in
  ObjectSet mockDevice "capabilities" mockCapabilities.

Definition EnumerateDevices : Method := fun self info =>
  if negb (isInitialized_ self) then
    (self, Throw Error "TWAIN not initialized")
  else
    let devices := ArrayNew 0 in
    let devices := ArraySet devices 0 mockDevice in
    (self, Return devices).

Definition SelectDevice : Method := fun self info =>
  if (length info <? 1)%nat || negb (IsString (arg info 0)) then
    (self, Throw TypeError "Device ID expected")
  else
    ({| isInitialized_ := isInitialized_ self;
        selectedDeviceId_ := Utf8Value (arg info 0) |},
     Return (VBoolean true)).

Definition GetCapabilities : Method := fun self info =>
  let capabilities := ObjectNew in
  let capabilities := ObjectSet capabilities "hasFlatbed" (VBoolean true) in
  let capabilities := ObjectSet capabilities "hasADF" (VBoolean true) in
  let capabilities := ObjectSet capabilities "duplex" (VBoolean true) in
  (self, Return capabilities).

Definition Scan : Method := fun self info =>
  if empty (selectedDeviceId_ self) then
    (self, Throw Error "No device selected")
  else
    let result := ObjectNew in
    let result := ObjectSet result "success" (VBoolean false) in
    let result :=
      ObjectSet result "errorMessage"
        (VString "TWAIN scanning not implemented - using mock scanner") in
    (self, Return result).

Definition CancelScan : Method := fun self info =>
  (self, Return (VBoolean true)).

Definition Close : Method := fun self info =>
  ({| isInitialized_ := false; selectedDeviceId_ := "" |},
   Return (VBoolean true)).

End TwainWrapper.

(** ** SANE ([saneWrapper.cpp]) *)

Module SaneWrapper.

Definition Initialize : Method := fun self info =>
  ({| isInitialized_ := true; selectedDeviceId_ := selectedDeviceId_ self |},
   Return (VBoolean true)).

Definition EnumerateDevices : Method := fun self info =>
  (self, Return (ArrayNew 0)).

Definition SelectDevice : Method := fun self info =>
  if (length info <? 1)%nat || negb (IsString (arg info 0)) then
    (self, Throw TypeError "Device ID expected")
  else
    ({| isInitialized_ := isInitialized_ self;
        selectedDeviceId_ := Utf8Value (arg info 0) |},
     Return (VBoolean true)).

Definition GetCapabilities : Method := fun self info =>
  (self, Return ObjectNew).

Definition Scan : Method := fun self info =>
  let result := ObjectNew in
  let result := ObjectSet result "success" (VBoolean false) in
  let result :=
    ObjectSet result "errorMessage" (VString "SANE scanning not implemented") in
  (self, Return result).

Definition CancelScan : Method := fun self info =>
  (self, Return (VBoolean true)).

(** Only the flag is reset; [selectedDeviceId_] is left as it was. *)
Definition Close : Method := fun self info =>
  ({| isInitialized_ := false; selectedDeviceId_ := selectedDeviceId_ self |},
   Return (VBoolean true)).

End SaneWrapper.

(** ** WIA ([wiaWrapper.cpp]) *)

Module WiaWrapper.

Definition Initialize : Method := fun self info =>
  ({| isInitialized_ := true; selectedDeviceId_ := selectedDeviceId_ self |},
   Return (VBoolean true)).

Definition EnumerateDevices : Method := fun self info =>
  (self, Return (ArrayNew 0)).

Definition SelectDevice : Method := fun self info =>
  if (length info <? 1)%nat || negb (IsString (arg info 0)) then
    (self, Throw TypeError "Device ID expected")
  else
    ({| isInitialized_ := isInitialized_ self;
        selectedDeviceId_ := Utf8Value (arg info 0) |},
     Return (VBoolean true)).

Definition GetCapabilities : Method := fun self info =>
  let capabilities := ObjectNew in
  (self, Return capabilities).

Definition Scan : Method := fun self info =>
  let result := ObjectNew in
  let result := ObjectSet result "success" (VBoolean false) in
  let result :=
    ObjectSet result "errorMessage" (VString "WIA scanning not implemented") in
  (self, Return result).

Definition CancelScan : Method := fun self info =>
  (self, Return (VBoolean true)).

(** Only the flag is reset; [selectedDeviceId_] is left as it was. *)
Definition Close : Method := fun self info =>
  ({| isInitialized_ := false; selectedDeviceId_ := selectedDeviceId_ self |},
   Return (VBoolean true)).

End WiaWrapper.

(** ** The classes as JavaScript sees them

    Each [Init] registers the same seven method names with [DefineClass];
    [method] is that table for the three classes whose bodies are in the
    sources. *)

Inductive Backend : Type := TWAIN | SANE | WIA.

Inductive MethodName : Type :=
| initialize
| enumerateDevices
| selectDevice
| getCapabilities
| scan
| cancelScan
| close.

Definition method (b : Backend) (m : MethodName) : Method :=
  match b, m with
  | TWAIN, initialize => TwainWrapper.Initialize
  | TWAIN, enumerateDevices => TwainWrapper.EnumerateDevices
  | TWAIN, selectDevice => TwainWrapper.SelectDevice
  | TWAIN, getCapabilities => TwainWrapper.GetCapabilities
  | TWAIN, scan => TwainWrapper.Scan
  | TWAIN, cancelScan => TwainWrapper.CancelScan
  | TWAIN, close => TwainWrapper.Close
  | SANE, initialize => SaneWrapper.Initialize
  | SANE, enumerateDevices => SaneWrapper.EnumerateDevices
  | SANE, selectDevice => SaneWrapper.SelectDevice
  | SANE, getCapabilities => SaneWrapper.GetCapabilities
  | SANE, scan => SaneWrapper.Scan
  | SANE, cancelScan => SaneWrapper.CancelScan
  | SANE, close => SaneWrapper.Close
  | WIA, initialize => WiaWrapper.Initialize
  | WIA, enumerateDevices => WiaWrapper.EnumerateDevices
  | WIA, selectDevice => WiaWrapper.SelectDevice
  | WIA, getCapabilities => WiaWrapper.GetCapabilities
  | WIA, scan => WiaWrapper.Scan
  | WIA, cancelScan => WiaWrapper.CancelScan
  | WIA, close => WiaWrapper.Close
  end.

(** A JavaScript call [obj.m(info...)]. *)
Definition Call : Type := (MethodName * CallbackInfo)%type.

(** A caller driving one object through a sequence of calls; the
    completions come back in call order. *)
Fixpoint run (b : Backend) (self : Session) (calls : list Call)
  : Session * list Completion :=
  match calls with
  | [] => (self, [])
  | (m, info) :: rest =>
      let (self1, c) := method b m self info in
      let (final, cs) := run b self1 rest in
      (final, c :: cs)
  end.

(** States an object can be in after some sequence of calls on a freshly
    constructed instance. *)
Definition reachable (b : Backend) (s : Session) : Prop :=
  exists calls, fst (run b construct calls) = s.

(** [n] successive calls of one method with the same arguments. *)
Definition repeated (m : MethodName) (info : CallbackInfo) (n : nat) : list Call :=
  repeat (m, info) n.

(** ** Reading the contract off the object state

    The sources keep no lifecycle field: the contract's state is what the
    two fields encode.  No wrapper ever records a scan in progress. *)

Inductive Lifecycle : Type := Uninitialized | Ready | DeviceSelected.

Definition lifecycle (s : Session) : Lifecycle :=
  if isInitialized_ s then
    if empty (selectedDeviceId_ s) then Ready else DeviceSelected
  else Uninitialized.

(** The contract's named errors. *)
Inductive NamedError : Type :=
| NotInitialized
| AlreadyClosed
| InvalidArgument
| DeviceNotFound
| NoDeviceSelected
| InvalidSettings
| DeviceUnavailable
| TransferFailed
| Cancelled.

(** The exceptions the sources throw, read as named errors: the three
    messages below are all the [ThrowAsJavaScriptException] sites there
    are.  A returned value is never a named error. *)
Definition error_of (c : Completion) : option NamedError :=
  match c with
  | Return _ => None
  | Throw Error message =>
      if String.eqb message "TWAIN not initialized" then Some NotInitialized
      else if String.eqb message "No device selected" then Some NoDeviceSelected
      else None
  | Throw TypeError message =>
      if String.eqb message "Device ID expected" then Some InvalidArgument
      else None
  end.

(** The [success] flag of a returned ScanResult object. *)
Definition success_of (c : Completion) : option bool :=
  match c with
  | Return o =>
      match ObjectGet o "success" with
      | VBoolean b => Some b
      | _ => None
      end
  | Throw _ _ => None
  end.

(** The text a caller gets to read on failure: the exception message, or
    the [errorMessage] of a returned result object. *)
Definition text_of (c : Completion) : string :=
  match c with
  | Return o => Utf8Value (ObjectGet o "errorMessage")
  | Throw _ message => message
  end.

(** [mentions needle hay]: [needle] occurs in [hay]. *)
Fixpoint mentions (needle hay : string) : bool :=
  String.prefix needle hay ||
  match hay with
  | EmptyString => false
  | String _ rest => mentions needle rest
  end.

(** The call did not succeed (an exception, or a result with
    [success == false]) and its text names every field of [fields]: the
    weakest reading of "fails reporting the violating fields". *)
Definition reports_fields (c : Completion) (fields : list string) : bool :=
  match c with
  | Throw _ _ => forallb (fun f => mentions f (text_of c)) fields
  | Return _ =>
      match success_of c with
      | Some false => forallb (fun f => mentions f (text_of c)) fields
      | _ => false
      end
  end.

(** The ids of the devices in an [enumerateDevices] completion (none when
    the call threw). *)
Definition device_ids (c : Completion) : list string :=
  match c with
  | Return devices =>
      map (fun d => Utf8Value (ObjectGet d "id")) (elements devices)
  | Throw _ _ => []
  end.

(** ** The contract's validation rule, for comparison

    Follows the spec's words (data model and capability validation): each
    settings field must be a member of the matching capability set, ADF
    and duplex need the device to have them, and all violations are
    listed.  No wrapper contains such a function. *)

Definition number_in (v arr : Value) : bool :=
  match v with
  | VNumber q =>
      existsb (fun e => match e with VNumber r => Qeq_bool q r | _ => false end)
        (elements arr)
  | _ => false
  end.

Definition string_in (v arr : Value) : bool :=
  match v with
  | VString s =>
      existsb (fun e => match e with VString t => String.eqb s t | _ => false end)
        (elements arr)
  | _ => false
  end.

Definition flag_allowed (wanted offered : Value) : bool :=
  match wanted with
  | VBoolean true => match offered with VBoolean true => true | _ => false end
  | _ => true
  end.

Definition spec_violations (settings capabilities : Value) : list string :=
  (if number_in (ObjectGet settings "resolution")
        (ObjectGet capabilities "resolutions") then [] else ["resolution"]) ++
  (if string_in (ObjectGet settings "colorMode")
        (ObjectGet capabilities "colorModes") then [] else ["colorMode"]) ++
  (if string_in (ObjectGet settings "paperSize")
        (ObjectGet capabilities "paperSizes") then [] else ["paperSize"]) ++
  (if flag_allowed (ObjectGet settings "useADF")
        (ObjectGet capabilities "hasADF") then [] else ["useADF"]) ++
  (if flag_allowed (ObjectGet settings "duplex")
        (ObjectGet capabilities "duplex") then [] else ["duplex"]).

(** A settings object as the host application passes it to [scan]. *)
Definition mkSettings (resolution : Z) (colorMode paperSize : string)
  (useADF duplex : bool) : Value :=
  VObject [("resolution", of_int resolution);
           ("colorMode", VString colorMode);
           ("paperSize", VString paperSize);
           ("useADF", VBoolean useADF);
           ("duplex", VBoolean duplex)].

(** ** Concrete values used in the statements below *)

(** The two result objects [Scan] can build. *)
Definition notImplemented (message : string) : Value :=
  VObject [("success", VBoolean false); ("errorMessage", VString message)].

Definition twainScanResult : Value :=
  notImplemented "TWAIN scanning not implemented - using mock scanner".

(** The three-flag object of [TwainScanner::GetCapabilities]. *)
Definition twainCapabilities : Value :=
  VObject [("hasFlatbed", VBoolean true); ("hasADF", VBoolean true);
           ("duplex", VBoolean true)].

(** The field names of a settings object that the contract validates. *)
Definition settings_fields : list string :=
  ["resolution"; "colorMode"; "paperSize"; "useADF"; "duplex"].

(** A TWAIN session that went through [initialize] and
    [selectDevice("twain-mock-001")]. *)
Definition twainSelected : Session :=
  {| isInitialized_ := true; selectedDeviceId_ := "twain-mock-001" |}.

Definition initialized : Session :=
  {| isInitialized_ := true; selectedDeviceId_ := "" |}.

Definition settings999 : Value := mkSettings 999 "color" "letter" false false.
Definition settings300 : Value := mkSettings 300 "color" "letter" false false.

(** The acceptance scenario of the contract as a call sequence:
    initialize, enumerate, select the device [id], scan at 300 dpi in
    colour on letter paper. *)
Definition scenario (id : string) : list Call :=
  [(initialize, []); (enumerateDevices, []);
   (selectDevice, [VString id]); (scan, [settings300])].

(** A caller that selects a device and then closes twice. *)
Definition select_then_close_twice (id : string) : list Call :=
  [(initialize, []); (selectDevice, [VString id])] ++ repeated close [] 2.

(** ** Which methods touch which field

    Read off the method bodies: four of the seven assign no field; only
    [Close] resets the flag; the stored id is assigned by [SelectDevice]
    and, on TWAIN alone, by [Close]. *)

Definition read_only (m : MethodName) : bool :=
  match m with
  | enumerateDevices | getCapabilities | scan | cancelScan => true
  | initialize | selectDevice | close => false
  end.

Definition is_close (m : MethodName) : bool :=
  match m with close => true | _ => false end.

Definition writes_id (b : Backend) (m : MethodName) : bool :=
  match m with
  | selectDevice => true
  | close => match b with TWAIN => true | SANE | WIA => false end
  | _ => false
  end.

(** A completion that is a result object with [success == true]. *)
Definition reports_success (c : Completion) : bool :=
  match success_of c with Some true => true | _ => false end.



(** A caller that polls the object without configuring it. *)
Definition polling : list Call :=
  [(enumerateDevices, []); (getCapabilities, []); (scan, [settings300]);
   (cancelScan, []); (scan, [])].

(** A caller that keeps working after [initialize] and never closes; its
    first two [selectDevice] calls are malformed. *)
Definition busy_without_close : list Call :=
  [(selectDevice, []); (selectDevice, [VNumber 7]); (scan, [settings300]);
   (selectDevice, [VString "flatbed"]); (initialize, []); (cancelScan, [])].

(** The [errorMessage] literal of each backend's [Scan]. *)
Definition scanMessage (b : Backend) : string :=
  match b with
  | TWAIN => "TWAIN scanning not implemented - using mock scanner"
  | SANE => "SANE scanning not implemented"
  | WIA => "WIA scanning not implemented"
  end.

(** ** General facts about the embedding *)

Lemma run_cons (b : Backend) (s : Session) (m : MethodName)
  (info : CallbackInfo) (rest : list Call) :
  run b s ((m, info) :: rest) =
    (fst (run b (fst (method b m s info)) rest),
     snd (method b m s info) :: snd (run b (fst (method b m s info)) rest)).
Proof.
  simpl. destruct (method b m s info) as [s1 c]. simpl.
  destruct (run b s1 rest) as [final cs]. reflexivity.
Qed.

Lemma run_app (b : Backend) (calls1 calls2 : list Call) (s : Session) :
  run b s (calls1 ++ calls2) =
    (fst (run b (fst (run b s calls1)) calls2),
     snd (run b s calls1) ++ snd (run b (fst (run b s calls1)) calls2)).
Proof.
  revert s. induction calls1 as [|[m info] calls1 IH]; intro s.
  - simpl. destruct (run b s calls2); reflexivity.
  - rewrite <- app_comm_cons, !run_cons, IH. reflexivity.
Qed.

Lemma reachable_construct (b : Backend) : reachable b construct.
Proof. exists []. reflexivity. Qed.

Lemma reachable_step (b : Backend) (s : Session) (m : MethodName)
  (info : CallbackInfo) :
  reachable b s -> reachable b (fst (method b m s info)).
Proof.
  intros [calls Hs]. exists (calls ++ [(m, info)]).
  rewrite run_app, Hs. simpl.
  destruct (method b m s info). reflexivity.
Qed.

Lemma empty_spec (s : string) : empty s = true <-> s = "".
Proof. destruct s; simpl; split; congruence. Qed.

(** The guard of [SelectDevice] lets every string through, whatever
    follows it in the argument list. *)
Lemma SelectDevice_string (b : Backend) (s : Session) (id : string)
  (more : CallbackInfo) :
  method b selectDevice s (VString id :: more) =
    ({| isInitialized_ := isInitialized_ s; selectedDeviceId_ := id |},
     Return (VBoolean true)).
Proof. destruct b; reflexivity. Qed.

(** ... and nothing else. *)
Lemma SelectDevice_not_string (b : Backend) (s : Session) (info : CallbackInfo) :
  IsString (arg info 0) = false ->
  method b selectDevice s info = (s, Throw TypeError "Device ID expected").
Proof.
  intro H. destruct b; simpl;
    unfold TwainWrapper.SelectDevice, SaneWrapper.SelectDevice,
      WiaWrapper.SelectDevice;
    rewrite H, orb_true_r; reflexivity.
Qed.

(** Every pair of field values is a reachable state of every class:
    [selectDevice] sets the id, then [initialize] or [close] sets the flag
    (on SANE and WIA [close] keeps the id; on TWAIN the order is swapped). *)
Lemma every_state_reachable (b : Backend) (s : Session) : reachable b s.
Proof.
  destruct s as [[|] id].
  - exists [(selectDevice, [VString id]); (initialize, [])].
    destruct b; reflexivity.
  - exists [(selectDevice, [VString id])].
    destruct b; reflexivity.
Qed.

(** *** What TWAIN guards *)

Lemma Twain_EnumerateDevices_uninitialized (s : Session) (info : CallbackInfo) :
  lifecycle s = Uninitialized ->
  TwainWrapper.EnumerateDevices s info = (s, Throw Error "TWAIN not initialized")
  /\ error_of (snd (TwainWrapper.EnumerateDevices s info)) = Some NotInitialized.
Proof.
  unfold lifecycle, TwainWrapper.EnumerateDevices.
  destruct (isInitialized_ s); simpl.
  - destruct (empty (selectedDeviceId_ s)); discriminate.
  - intros _. split; reflexivity.
Qed.

Lemma Twain_Scan_no_device (s : Session) (info : CallbackInfo) :
  empty (selectedDeviceId_ s) = true ->
  TwainWrapper.Scan s info = (s, Throw Error "No device selected")
  /\ error_of (snd (TwainWrapper.Scan s info)) = Some NoDeviceSelected.
Proof.
  intro H. unfold TwainWrapper.Scan. rewrite H. split; reflexivity.
Qed.

Lemma Twain_Scan_selected (s : Session) (info : CallbackInfo) :
  empty (selectedDeviceId_ s) = false ->
  TwainWrapper.Scan s info = (s, Return twainScanResult).
Proof.
  intro H. unfold TwainWrapper.Scan. rewrite H. reflexivity.
Qed.

Lemma Twain_Close_repeated (n : nat) (s : Session) (info : CallbackInfo) :
  run TWAIN s (repeated close info (S n)) =
    (construct, repeat (Return (VBoolean true)) (S n)).
Proof.
  unfold repeated. revert s. induction n as [|n IH]; intro s.
  - reflexivity.
  - change (repeat (close, info) (S (S n)))
      with ((close, info) :: repeat (close, info) (S n)).
    rewrite run_cons, IH. reflexivity.
Qed.

(** On SANE and WIA the selected id survives any number of [close]
    calls. *)
Lemma Close_repeated_keeps_id (b : Backend) (n : nat) (s : Session)
  (info : CallbackInfo) :
  b = SANE \/ b = WIA ->
  run b s (repeated close info (S n)) =
    ({| isInitialized_ := false; selectedDeviceId_ := selectedDeviceId_ s |},
     repeat (Return (VBoolean true)) (S n)).
Proof.
  intro Hb. unfold repeated. revert s. induction n as [|n IH]; intro s.
  - destruct Hb; subst b; reflexivity.
  - change (repeat (close, info) (S (S n)))
      with ((close, info) :: repeat (close, info) (S n)).
    rewrite run_cons, IH. destruct Hb; subst b; reflexivity.
Qed.

(** ** The session contract against the wrappers *)

(** C1, as the code has it.  For every TWAIN session in state
    DeviceSelected and every argument list, [Scan] does not look at the
    settings: it returns the fixed result object with [success == false]
    and the "not implemented" message, raises no named error, names none of
    the settings fields in its text, and leaves the session unchanged. *)
Theorem C1_twain_scan_ignores_settings :
  forall (s : Session) (info : CallbackInfo),
    lifecycle s = DeviceSelected ->
    TwainWrapper.Scan s info = (s, Return twainScanResult)
    /\ error_of (snd (TwainWrapper.Scan s info)) = None
    /\ existsb (fun f => mentions f (text_of (snd (TwainWrapper.Scan s info))))
         settings_fields = false.
Proof.
  intros s info H. unfold lifecycle in H.
  destruct (isInitialized_ s); [|discriminate].
  destruct (empty (selectedDeviceId_ s)) eqn:E; [discriminate|].
  rewrite (Twain_Scan_selected s info E).
  repeat split; reflexivity.
Qed.

Lemma C1_twain_scan_ignores_settings_witness :
  lifecycle twainSelected = DeviceSelected
  /\ TwainWrapper.Scan twainSelected [settings999]
     = (twainSelected, Return twainScanResult).
Proof.
  split; [reflexivity|].
  apply (C1_twain_scan_ignores_settings twainSelected [settings999]).
  reflexivity.
Defined.

(** C1 as stated fails: in state DeviceSelected, with resolution 999
    violating the enumerated resolutions [75,150,300,600], [Scan] raises no
    InvalidSettings, its result does not list [resolution], and it is the
    very result the valid settings get. *)
Lemma C1_scan_999_not_rejected_as_invalid :
  lifecycle twainSelected = DeviceSelected
  /\ spec_violations settings999 TwainWrapper.mockCapabilities = ["resolution"]
  /\ spec_violations settings300 TwainWrapper.mockCapabilities = []
  /\ error_of (snd (TwainWrapper.Scan twainSelected [settings999])) = None
  /\ reports_fields (snd (TwainWrapper.Scan twainSelected [settings999]))
       ["resolution"] = false
  /\ TwainWrapper.Scan twainSelected [settings999]
     = TwainWrapper.Scan twainSelected [settings300].
Proof. repeat split; reflexivity. Qed.

(** The acceptance scenario (C2) cannot be set up on these wrappers: no
    backend, in any state and for any arguments, enumerates a device whose
    id is "mock-001".  TWAIN lists "twain-mock-001" once initialized; SANE
    and WIA list nothing. *)
Lemma mock_001_never_enumerated :
  forall (b : Backend) (s : Session) (info : CallbackInfo),
    existsb (String.eqb "mock-001")
      (device_ids (snd (method b enumerateDevices s info))) = false.
Proof.
  intros b s info. destruct b; cbn [method].
  - unfold TwainWrapper.EnumerateDevices.
    destruct (isInitialized_ s); reflexivity.
  - reflexivity.
  - reflexivity.
Qed.

(** What the scenario's calls give when they are run all the same: with
    the id of the scenario or with the id TWAIN enumerates, and on SANE,
    every select returns true and the scan result has [success == false]
    and no [resolution]. *)
Lemma scenario_scan_reports_failure :
  spec_violations settings300 TwainWrapper.mockCapabilities = []
  /\ run TWAIN construct (scenario "mock-001") =
       ({| isInitialized_ := true; selectedDeviceId_ := "mock-001" |},
        [Return (VBoolean true); Return (VArray [TwainWrapper.mockDevice]);
         Return (VBoolean true); Return twainScanResult])
  /\ run TWAIN construct (scenario "twain-mock-001") =
       (twainSelected,
        [Return (VBoolean true); Return (VArray [TwainWrapper.mockDevice]);
         Return (VBoolean true); Return twainScanResult])
  /\ device_ids (Return (VArray [TwainWrapper.mockDevice])) = ["twain-mock-001"]
  /\ success_of (Return twainScanResult) = Some false
  /\ ObjectGet twainScanResult "resolution" = VUndefined
  /\ map success_of (snd (run SANE construct (scenario "mock-001")))
     = [None; None; None; Some false].
Proof. repeat split; reflexivity. Qed.

(** C3 fails on SANE and WIA.  In every state, so also on a freshly
    constructed (Uninitialized) object or after [Close], their
    [EnumerateDevices] returns an empty array and raises nothing, where
    TWAIN's throws the error read as NotInitialized. *)
Theorem C3_sane_wia_enumerate_without_initialize :
  forall (s : Session) (info : CallbackInfo),
    SaneWrapper.EnumerateDevices s info = (s, Return (VArray []))
    /\ WiaWrapper.EnumerateDevices s info = (s, Return (VArray []))
    /\ error_of (snd (SaneWrapper.EnumerateDevices s info)) = None
    /\ error_of (snd (WiaWrapper.EnumerateDevices s info)) = None
    /\ lifecycle construct = Uninitialized
    /\ lifecycle (fst (SaneWrapper.Close twainSelected [])) = Uninitialized
    /\ error_of (snd (TwainWrapper.EnumerateDevices construct info))
       = Some NotInitialized.
Proof. intros s info. repeat split; reflexivity. Qed.




(** C5 fails on every backend.  [SelectDevice("")] passes the string
    guard: it returns true, raises nothing, and overwrites the stored id
    with the empty string, so a session that had a device selected has none
    afterwards (TWAIN's own [Scan] then throws "No device selected"). *)
Theorem C5_select_empty_id_returns_true :
  forall (b : Backend) (s : Session),
    method b selectDevice s [VString ""] =
      ({| isInitialized_ := isInitialized_ s; selectedDeviceId_ := "" |},
       Return (VBoolean true))
    /\ error_of (snd (method b selectDevice s [VString ""])) = None
    /\ run TWAIN twainSelected [(selectDevice, [VString ""]); (scan, [settings300])]
       = (initialized,
          [Return (VBoolean true); Throw Error "No device selected"]).
Proof.
  intros b s. rewrite SelectDevice_string. repeat split; reflexivity.
Qed.

(** C6 fails on SANE and WIA.  Any number [n + 1] of [Close] calls
    returns true every time and resets the flag, but the selected device id
    is kept: after initialize, select "scanner-7" and two closes the object
    is Uninitialized with "scanner-7" still stored.  TWAIN's [Close] clears
    it. *)
Theorem C6_sane_wia_close_keeps_selected_id :
  forall (n : nat) (s : Session),
    run SANE s (repeated close [] (S n)) =
      ({| isInitialized_ := false; selectedDeviceId_ := selectedDeviceId_ s |},
       repeat (Return (VBoolean true)) (S n))
    /\ run WIA s (repeated close [] (S n)) =
      ({| isInitialized_ := false; selectedDeviceId_ := selectedDeviceId_ s |},
       repeat (Return (VBoolean true)) (S n))
    /\ run SANE construct (select_then_close_twice "scanner-7") =
      ({| isInitialized_ := false; selectedDeviceId_ := "scanner-7" |},
       repeat (Return (VBoolean true)) 4)
    /\ run TWAIN construct (select_then_close_twice "scanner-7") =
      (construct, repeat (Return (VBoolean true)) 4).
Proof.
  intros n s. split; [|split; [|split]].
  - apply Close_repeated_keeps_id. left; reflexivity.
  - apply Close_repeated_keeps_id. right; reflexivity.
  - reflexivity.
  - reflexivity.
Qed.

(** C7 fails on SANE and WIA.  Their [Scan] never looks at the selected
    device id: in every state, also with none selected, it returns the
    generic result with [success == false] and raises no named error, where
    TWAIN's throws the error read as NoDeviceSelected.  The state is
    unchanged on all three. *)
Theorem C7_sane_wia_scan_without_device :
  forall (s : Session) (info : CallbackInfo),
    SaneWrapper.Scan s info =
      (s, Return (notImplemented "SANE scanning not implemented"))
    /\ WiaWrapper.Scan s info =
      (s, Return (notImplemented "WIA scanning not implemented"))
    /\ error_of (snd (SaneWrapper.Scan s info)) = None
    /\ error_of (snd (WiaWrapper.Scan s info)) = None
    /\ error_of (snd (TwainWrapper.Scan construct info)) = Some NoDeviceSelected.
Proof. intros s info. repeat split; reflexivity. Qed.

(** C8, as the code has it.  On every backend, in every session state and
    for every argument list, [GetCapabilities] raises no error and leaves
    the session unchanged: TWAIN returns the object with the three flags
    [hasFlatbed], [hasADF], [duplex] set to true, SANE and WIA return an
    empty object. *)
Theorem C8_get_capabilities_never_fails :
  forall (b : Backend) (s : Session) (info : CallbackInfo),
    method b getCapabilities s info =
      (s, Return match b with
                 | TWAIN => twainCapabilities
                 | SANE | WIA => VObject []
                 end)
    /\ error_of (snd (method b getCapabilities s info)) = None.
Proof. intros b s info. destruct b; split; reflexivity. Qed.

(** C8 as stated fails: on a freshly constructed TWAIN object (no device
    selected, not even initialized) [GetCapabilities] returns the
    three-flag capabilities object and raises no NoDeviceSelected; on SANE
    it returns an empty object. *)
Lemma C8_capabilities_without_device :
  lifecycle construct = Uninitialized
  /\ empty (selectedDeviceId_ construct) = true
  /\ TwainWrapper.GetCapabilities construct [] = (construct, Return twainCapabilities)
  /\ error_of (snd (TwainWrapper.GetCapabilities construct [])) = None
  /\ SaneWrapper.GetCapabilities initialized [] = (initialized, Return (VObject [])).
Proof. repeat split; reflexivity. Qed.

(** C9, as the code has it.  On every backend and from every session
    state, two [Initialize] calls in succession both return true; the
    second changes nothing (the state after two calls is the state after
    one, and the second call maps that state to itself); the object ends
    initialized, keeping whatever id was stored: Ready when none is (so
    from a fresh object), DeviceSelected when one is. *)
Theorem C9_initialize_twice_is_initialize_once :
  forall (b : Backend) (s : Session) (info1 info2 : CallbackInfo),
    run b s [(initialize, info1); (initialize, info2)] =
      ({| isInitialized_ := true; selectedDeviceId_ := selectedDeviceId_ s |},
       [Return (VBoolean true); Return (VBoolean true)])
    /\ run b s [(initialize, info1)] =
      ({| isInitialized_ := true; selectedDeviceId_ := selectedDeviceId_ s |},
       [Return (VBoolean true)])
    /\ method b initialize (fst (method b initialize s info1)) info2 =
      (fst (method b initialize s info1), Return (VBoolean true))
    /\ lifecycle (fst (run b s [(initialize, info1); (initialize, info2)])) =
      (if empty (selectedDeviceId_ s) then Ready else DeviceSelected)
    /\ lifecycle (fst (run b construct [(initialize, info1); (initialize, info2)]))
       = Ready.
Proof.
  intros b s info1 info2. destruct b; repeat split; reflexivity.
Qed.

(** C9 as stated fails: a session does not always end in Ready.  A caller
    that selects "flatbed" before initializing gets true from all three
    calls and ends in DeviceSelected after the second [initialize], on
    every backend; on TWAIN the difference shows, since [Scan] then returns
    its result object where a Ready session gets "No device selected". *)
Lemma C9_initialize_twice_ends_device_selected :
  run TWAIN construct
    [(selectDevice, [VString "flatbed"]); (initialize, []); (initialize, [])]
  = ({| isInitialized_ := true; selectedDeviceId_ := "flatbed" |},
     [Return (VBoolean true); Return (VBoolean true); Return (VBoolean true)])
  /\ map (fun b =>
            lifecycle
              (fst (run b (fst (method b selectDevice construct
                                  [VString "flatbed"]))
                      [(initialize, []); (initialize, [])])))
       [TWAIN; SANE; WIA]
     = [DeviceSelected; DeviceSelected; DeviceSelected]
  /\ snd (TwainWrapper.Scan
            {| isInitialized_ := true; selectedDeviceId_ := "flatbed" |}
            [settings300])
     = Return twainScanResult
  /\ lifecycle initialized = Ready
  /\ snd (TwainWrapper.Scan initialized [settings300])
     = Throw Error "No device selected".
Proof. repeat split; reflexivity. Qed.

(** C10.  On every backend, from every session state (initialized or not)
    and whatever was or was not enumerated, [SelectDevice(id)] with a
    non-empty string returns true and stores [id] verbatim, leaving the
    initialization flag as it was; any further arguments are ignored. *)
Theorem C10_select_stores_any_nonempty_id :
  forall (b : Backend) (s : Session) (id : string) (more : CallbackInfo),
    empty id = false ->
    method b selectDevice s (VString id :: more) =
      ({| isInitialized_ := isInitialized_ s; selectedDeviceId_ := id |},
       Return (VBoolean true))
    /\ selectedDeviceId_ (fst (method b selectDevice s (VString id :: more))) = id
    /\ isInitialized_ (fst (method b selectDevice s (VString id :: more)))
       = isInitialized_ s
    /\ empty (selectedDeviceId_
                (fst (method b selectDevice s (VString id :: more)))) = false.
Proof.
  intros b s id more Hid. rewrite SelectDevice_string.
  repeat split; try reflexivity. exact Hid.
Qed.

Lemma C10_select_stores_any_nonempty_id_witness :
  empty "never-enumerated" = false
  /\ lifecycle construct = Uninitialized
  /\ device_ids (snd (method SANE enumerateDevices construct [])) = []
  /\ method SANE selectDevice construct [VString "never-enumerated"] =
       ({| isInitialized_ := false; selectedDeviceId_ := "never-enumerated" |},
        Return (VBoolean true)).
Proof.
  split; [reflexivity|]. split; [reflexivity|]. split; [reflexivity|].
  apply (C10_select_stores_any_nonempty_id SANE construct "never-enumerated" []).
  reflexivity.
Defined.

(** ** Further properties of the wrappers *)

Ltac unfold_methods :=
  cbn [method];
  unfold TwainWrapper.Initialize, TwainWrapper.EnumerateDevices,
    TwainWrapper.SelectDevice, TwainWrapper.GetCapabilities,
    TwainWrapper.Scan, TwainWrapper.CancelScan, TwainWrapper.Close,
    SaneWrapper.Initialize, SaneWrapper.EnumerateDevices,
    SaneWrapper.SelectDevice, SaneWrapper.GetCapabilities,
    SaneWrapper.Scan, SaneWrapper.CancelScan, SaneWrapper.Close,
    WiaWrapper.Initialize, WiaWrapper.EnumerateDevices,
    WiaWrapper.SelectDevice, WiaWrapper.GetCapabilities,
    WiaWrapper.Scan, WiaWrapper.CancelScan, WiaWrapper.Close.

Ltac split_guards :=
  repeat match goal with
    | |- context [if ?c then _ else _] => destruct c eqn:?
    | H : context [if ?c then _ else _] |- _ => destruct c eqn:?
    end.

(** The length test of the [SelectDevice] guard is subsumed by the string
    test: an absent argument reads as undefined. *)
Lemma select_guard (info : CallbackInfo) :
  (length info <? 1)%nat || negb (IsString (arg info 0))
  = negb (IsString (arg info 0)).
Proof. destruct info; reflexivity. Qed.

Lemma read_only_step (b : Backend) (m : MethodName) (s : Session)
  (info : CallbackInfo) :
  read_only m = true -> fst (method b m s info) = s.
Proof.
  destruct b, m; try discriminate; intros _; unfold_methods;
    split_guards; reflexivity.
Qed.

Lemma flag_step (b : Backend) (m : MethodName) (s : Session)
  (info : CallbackInfo) :
  is_close m = false -> isInitialized_ s = true ->
  isInitialized_ (fst (method b m s info)) = true.
Proof.
  destruct b, m; try discriminate; intros _ H; unfold_methods;
    split_guards; simpl; auto.
Qed.

Lemma id_step (b : Backend) (m : MethodName) (s : Session)
  (info : CallbackInfo) :
  writes_id b m = false ->
  selectedDeviceId_ (fst (method b m s info)) = selectedDeviceId_ s.
Proof.
  destruct b, m; try discriminate; intros _; unfold_methods;
    split_guards; reflexivity.
Qed.

Lemma no_success_step (b : Backend) (m : MethodName) (s : Session)
  (info : CallbackInfo) :
  reports_success (snd (method b m s info)) = false.
Proof.
  destruct b, m; unfold_methods; split_guards; reflexivity.
Qed.

Lemma stateless_step (b : Backend) (m : MethodName) (s1 s2 : Session)
  (info : CallbackInfo) :
  b = SANE \/ b = WIA ->
  snd (method b m s1 info) = snd (method b m s2 info).
Proof.
  intros [Hb|Hb]; subst b; destruct m; unfold_methods;
    split_guards; reflexivity.
Qed.

Lemma stateless_run (b : Backend) (calls : list Call) (s1 s2 : Session) :
  b = SANE \/ b = WIA ->
  snd (run b s1 calls) = snd (run b s2 calls).
Proof.
  intro Hb. revert s1 s2.
  induction calls as [|[m info] calls IH]; intros s1 s2.
  - reflexivity.
  - rewrite !run_cons. cbn [snd].
    rewrite (stateless_step b m s1 s2 info Hb).
    f_equal. apply IH.
Qed.

(** X1.  On every backend, [SelectDevice] called with no argument, or with
    a first argument that is not a string (a number, null, a device object
    taken from the enumeration), throws the TypeError "Device ID expected"
    and leaves both fields as they were. *)
Theorem X1_select_rejects_non_string :
  forall (b : Backend) (s : Session) (info : CallbackInfo),
    IsString (arg info 0) = false ->
    method b selectDevice s info = (s, Throw TypeError "Device ID expected")
    /\ error_of (snd (method b selectDevice s info)) = Some InvalidArgument.
Proof.
  intros b s info H.
  rewrite (SelectDevice_not_string b s info H). split; reflexivity.
Qed.

Lemma X1_select_rejects_non_string_witness :
  IsString (arg [TwainWrapper.mockDevice] 0) = false
  /\ method TWAIN selectDevice twainSelected [TwainWrapper.mockDevice]
     = (twainSelected, Throw TypeError "Device ID expected").
Proof.
  split; [reflexivity|].
  apply (X1_select_rejects_non_string TWAIN twainSelected
           [TwainWrapper.mockDevice]).
  reflexivity.
Defined.

(** X2.  Whenever a method of any backend throws, the object is left
    exactly as it was before the call. *)
Theorem X2_throw_leaves_session_unchanged :
  forall (b : Backend) (m : MethodName) (s : Session) (info : CallbackInfo)
         (c : ErrorClass) (message : string),
    snd (method b m s info) = Throw c message ->
    fst (method b m s info) = s.
Proof.
  intros b m s info c message.
  destruct b, m; unfold_methods; split_guards; simpl;
    intro H; try discriminate H; reflexivity.
Qed.

Lemma X2_throw_leaves_session_unchanged_witness :
  snd (method TWAIN scan initialized [settings300])
    = Throw Error "No device selected"
  /\ fst (method TWAIN scan initialized [settings300]) = initialized.
Proof.
  split; [reflexivity|].
  apply (X2_throw_leaves_session_unchanged TWAIN scan initialized
           [settings300] Error "No device selected").
  reflexivity.
Defined.

(** X3.  The wrappers throw in exactly three situations, and in each of
    them they do: [SelectDevice] on a first argument that is not a string
    throws the TypeError "Device ID expected" (any backend), TWAIN's
    [EnumerateDevices] throws "TWAIN not initialized" while the flag is
    false, and TWAIN's [Scan] throws "No device selected" while the stored
    id is empty.  No other call throws, and none throws anything else; in
    particular no SANE or WIA method other than [SelectDevice] throws. *)
Theorem X3_every_exception_is_one_of_three :
  forall (b : Backend) (m : MethodName) (s : Session) (info : CallbackInfo)
         (c : ErrorClass) (message : string),
    snd (method b m s info) = Throw c message <->
    ((m = selectDevice /\ IsString (arg info 0) = false
      /\ c = TypeError /\ message = "Device ID expected")
     \/ (b = TWAIN /\ m = enumerateDevices /\ isInitialized_ s = false
         /\ c = Error /\ message = "TWAIN not initialized")
     \/ (b = TWAIN /\ m = scan /\ empty (selectedDeviceId_ s) = true
         /\ c = Error /\ message = "No device selected")).
Proof.
  intros b m s info c message. split.
  - destruct b, m; unfold_methods; try rewrite select_guard;
      split_guards; simpl; intro H; try discriminate H;
      injection H as <- <-.
    + right; left. repeat split.
      destruct (isInitialized_ s); [discriminate|reflexivity].
    + left. repeat split.
      destruct (IsString (arg info 0)); [discriminate|reflexivity].
    + right; right. repeat split.
    + left. repeat split.
      destruct (IsString (arg info 0)); [discriminate|reflexivity].
    + left. repeat split.
      destruct (IsString (arg info 0)); [discriminate|reflexivity].
  - intros [(-> & Hstr & -> & ->)|[(-> & -> & Hflag & -> & ->)
                                  |(-> & -> & Hid & -> & ->)]].
    + rewrite (SelectDevice_not_string b s info Hstr). reflexivity.
    + cbn [method]. unfold TwainWrapper.EnumerateDevices.
      rewrite Hflag. reflexivity.
    + cbn [method]. unfold TwainWrapper.Scan. rewrite Hid. reflexivity.
Qed.

Lemma X3_every_exception_is_one_of_three_witness :
  isInitialized_ construct = false
  /\ snd (method TWAIN enumerateDevices construct [])
     = Throw Error "TWAIN not initialized"
  /\ IsString (arg [VNull] 0) = false
  /\ snd (method WIA selectDevice twainSelected [VNull])
     = Throw TypeError "Device ID expected".
Proof.
  split; [reflexivity|]. split.
  - apply (proj2 (X3_every_exception_is_one_of_three TWAIN enumerateDevices
                    construct [] Error "TWAIN not initialized")).
    right; left. repeat split.
  - split; [reflexivity|].
    apply (proj2 (X3_every_exception_is_one_of_three WIA selectDevice
                    twainSelected [VNull] TypeError "Device ID expected")).
    left. repeat split.
Defined.

(** X4.  On every backend, any sequence made only of [enumerateDevices],
    [getCapabilities], [scan] and [cancelScan] calls, failing or not,
    leaves the object in the state it started in. *)
Theorem X4_read_only_calls_keep_state :
  forall (b : Backend) (calls : list Call) (s : Session),
    forallb (fun call => read_only (fst call)) calls = true ->
    fst (run b s calls) = s.
Proof.
  intros b calls. induction calls as [|[m info] calls IH]; intros s H.
  - reflexivity.
  - cbn [forallb fst] in H. apply andb_prop in H as [Hm Hrest].
    rewrite run_cons. cbn [fst].
    rewrite (read_only_step b m s info Hm). apply IH, Hrest.
Qed.

Lemma X4_read_only_calls_keep_state_witness :
  forallb (fun call => read_only (fst call)) polling = true
  /\ fst (run TWAIN twainSelected polling) = twainSelected.
Proof.
  split; [reflexivity|].
  apply (X4_read_only_calls_keep_state TWAIN polling twainSelected).
  reflexivity.
Defined.

(** X5.  A [cancelScan] call can be put anywhere in a call sequence, with
    any arguments, on any backend: it returns true, and the final state and
    every other completion are those of the sequence without it. *)
Theorem X5_cancel_scan_is_transparent :
  forall (b : Backend) (s : Session) (before after : list Call)
         (info : CallbackInfo),
    fst (run b s (before ++ (cancelScan, info) :: after))
      = fst (run b s (before ++ after))
    /\ snd (run b s (before ++ (cancelScan, info) :: after))
      = snd (run b s before) ++
        Return (VBoolean true) :: snd (run b (fst (run b s before)) after)
    /\ snd (run b s (before ++ after))
      = snd (run b s before) ++ snd (run b (fst (run b s before)) after).
Proof.
  intros b s before after info.
  assert (Hc : forall s', method b cancelScan s' info
                          = (s', Return (VBoolean true)))
    by (intro s'; destruct b; reflexivity).
  rewrite !run_app, run_cons, Hc. repeat split; reflexivity.
Qed.

(** X6.  On every backend, once the flag [isInitialized_] is set it stays
    set through any sequence of calls that contains no [close], whatever
    the calls are and whether they throw. *)
Theorem X6_initialized_until_close :
  forall (b : Backend) (calls : list Call) (s : Session),
    isInitialized_ s = true ->
    forallb (fun call => negb (is_close (fst call))) calls = true ->
    isInitialized_ (fst (run b s calls)) = true.
Proof.
  intros b calls. induction calls as [|[m info] calls IH]; intros s Hs H.
  - exact Hs.
  - cbn [forallb fst] in H. apply andb_prop in H as [Hm Hrest].
    rewrite run_cons. cbn [fst]. apply IH; [|exact Hrest].
    apply flag_step; [|exact Hs].
    destruct (is_close m); [discriminate|reflexivity].
Qed.

Lemma X6_initialized_until_close_witness :
  isInitialized_ initialized = true
  /\ forallb (fun call => negb (is_close (fst call))) busy_without_close = true
  /\ isInitialized_ (fst (run SANE initialized busy_without_close)) = true.
Proof.
  split; [reflexivity|]. split; [reflexivity|].
  apply (X6_initialized_until_close SANE busy_without_close initialized);
    reflexivity.
Defined.

(** X7.  The stored device id is changed only by [selectDevice] and, on
    TWAIN, by [close]: through any sequence of other calls (on SANE and WIA
    that includes [close]) it stays what it was. *)
Theorem X7_selection_kept_by_other_calls :
  forall (b : Backend) (calls : list Call) (s : Session),
    forallb (fun call => negb (writes_id b (fst call))) calls = true ->
    selectedDeviceId_ (fst (run b s calls)) = selectedDeviceId_ s.
Proof.
  intros b calls. induction calls as [|[m info] calls IH]; intros s H.
  - reflexivity.
  - cbn [forallb fst] in H. apply andb_prop in H as [Hm Hrest].
    rewrite run_cons. cbn [fst]. rewrite (IH _ Hrest).
    apply id_step. destruct (writes_id b m); [discriminate|reflexivity].
Qed.

Lemma X7_selection_kept_by_other_calls_witness :
  forallb (fun call => negb (writes_id WIA (fst call)))
    ((close, []) :: (initialize, []) :: polling) = true
  /\ selectedDeviceId_
       (fst (run WIA twainSelected ((close, []) :: (initialize, []) :: polling)))
     = selectedDeviceId_ twainSelected.
Proof.
  split; [reflexivity|].
  apply (X7_selection_kept_by_other_calls WIA
           ((close, []) :: (initialize, []) :: polling) twainSelected).
  reflexivity.
Defined.

(** X8.  No call sequence on any backend, from any state, ever produces a
    result object with [success == true]: no completion of any run is a
    successful scan. *)
Theorem X8_no_run_reports_success :
  forall (b : Backend) (calls : list Call) (s : Session),
    existsb reports_success (snd (run b s calls)) = false.
Proof.
  intros b calls. induction calls as [|[m info] calls IH]; intro s.
  - reflexivity.
  - rewrite run_cons. cbn [snd existsb].
    rewrite no_success_step, IH. reflexivity.
Qed.

(** X9.  SANE and WIA objects are observationally stateless: the
    completions of any call sequence are the same from any two states, so
    nothing a caller did earlier (initialize, select, close) can be seen in
    what later calls return. *)
Theorem X9_sane_wia_completions_ignore_state :
  forall (calls : list Call) (s1 s2 : Session),
    snd (run SANE s1 calls) = snd (run SANE s2 calls)
    /\ snd (run WIA s1 calls) = snd (run WIA s2 calls).
Proof.
  intros calls s1 s2. split; apply stateless_run; [left|right]; reflexivity.
Qed.

(** X10.  On every backend [initialize] and [selectDevice(id)] commute:
    in either order both return true and the object ends initialized with
    [id] stored. *)
Theorem X10_select_and_initialize_commute :
  forall (b : Backend) (s : Session) (id : string) (info : CallbackInfo),
    run b s [(selectDevice, [VString id]); (initialize, info)]
      = ({| isInitialized_ := true; selectedDeviceId_ := id |},
         [Return (VBoolean true); Return (VBoolean true)])
    /\ run b s [(initialize, info); (selectDevice, [VString id])]
      = ({| isInitialized_ := true; selectedDeviceId_ := id |},
         [Return (VBoolean true); Return (VBoolean true)]).
Proof. intros b s id info. destruct b; split; reflexivity. Qed.

(** X11.  After [close] a TWAIN object behaves as a newly constructed one:
    whatever its state was, [close] returns true and every later call
    sequence gives the completions and the final state it gives on a fresh
    object. *)
Theorem X11_twain_close_resets_to_constructed :
  forall (s : Session) (info : CallbackInfo) (calls : list Call),
    run TWAIN s ((close, info) :: calls)
      = (fst (run TWAIN construct calls),
         Return (VBoolean true) :: snd (run TWAIN construct calls)).
Proof. intros s info calls. rewrite run_cons. reflexivity. Qed.

(** X12.  On every backend, [close] called one or more times in a row from
    any state returns true every time and leaves the flag reset (the object
    Uninitialized); a TWAIN [enumerateDevices] right after throws
    "TWAIN not initialized". *)
Theorem X12_close_repeated_uninitializes :
  forall (b : Backend) (n : nat) (s : Session) (info : CallbackInfo),
    snd (run b s (repeated close info (S n)))
      = repeat (Return (VBoolean true)) (S n)
    /\ lifecycle (fst (run b s (repeated close info (S n)))) = Uninitialized
    /\ snd (method TWAIN enumerateDevices
              (fst (run TWAIN s (repeated close info (S n)))) [])
       = Throw Error "TWAIN not initialized".
Proof.
  intros b n s info. rewrite (Twain_Close_repeated n s info).
  destruct b.
  - rewrite (Twain_Close_repeated n s info). repeat split.
  - rewrite (Close_repeated_keeps_id SANE n s info) by (left; reflexivity).
    repeat split.
  - rewrite (Close_repeated_keeps_id WIA n s info) by (right; reflexivity).
    repeat split.
Qed.



(** X14.  On every backend and from every session state, a
    [selectDevice(id)] with a non-empty id followed by a [scan] with any
    settings returns true and then the backend's placeholder result: an
    object of exactly [success == false] and the [errorMessage] literal
    of that backend's [Scan] ([scanMessage]), with no [resolution] and no
    [colorMode]; the object ends with [id] stored and its flag untouched. *)
Theorem X14_scan_after_select_is_not_implemented :
  forall (b : Backend) (s : Session) (id : string) (settings : Value),
    empty id = false ->
    run b s [(selectDevice, [VString id]); (scan, [settings])] =
      ({| isInitialized_ := isInitialized_ s; selectedDeviceId_ := id |},
       [Return (VBoolean true); Return (notImplemented (scanMessage b))])
    /\ success_of (Return (notImplemented (scanMessage b))) = Some false
    /\ ObjectHas (notImplemented (scanMessage b)) "resolution" = false
    /\ ObjectHas (notImplemented (scanMessage b)) "colorMode" = false.
Proof.
  intros b s id settings Hid.
  destruct b; (split; [|repeat split; reflexivity]).
  - rewrite run_cons, SelectDevice_string. cbn [fst snd].
    rewrite run_cons. cbn [method run fst snd].
    rewrite Twain_Scan_selected by exact Hid. reflexivity.
  - reflexivity.
  - reflexivity.
Qed.

Lemma X14_scan_after_select_is_not_implemented_witness :
  empty "mock-001" = false
  /\ run WIA initialized
       [(selectDevice, [VString "mock-001"]); (scan, [settings300])] =
       ({| isInitialized_ := isInitialized_ initialized;
           selectedDeviceId_ := "mock-001" |},
        [Return (VBoolean true);
         Return (notImplemented "WIA scanning not implemented")]).
Proof.
  split; [reflexivity|].
  apply (X14_scan_after_select_is_not_implemented WIA initialized
           "mock-001" settings300).
  reflexivity.
Defined.
